(** * anubis: camera detection to position estimate

    A shallow embedding of [anubis/consts.py] and [anubis/anubis.py].

    Numbers.  Python [float] values are modelled by the real numbers [R] and
    Python [int] values by [Z], injected with [IZR] wherever the source mixes
    them with floats.  Rounding, infinities and NaN are outside the model:
    the theorems are statements about the arithmetic the source writes down.

    Errors.  Python raises [ZeroDivisionError] on a zero divisor and
    [ValueError] when [math.log] is given a non-positive argument; a call
    with a keyword the signature does not have raises [TypeError].
    Computations therefore live in a small error monad [py].  A division
    whose divisor is a non-zero literal or constant ([2], [180], [360],
    [math.pi], [RADIUS]) cannot raise and is written with the plain [/].

    Transcendental functions.  [math.cos], [math.sin], [math.atan] and
    [math.tan] are the functions [cos], [sin], [atan] and [tan] of the Reals
    library.  The real tangent has no value at odd multiples of [pi / 2];
    statements that go through [math.tan] are made away from those points.

    Globals.  The module-level dict [probable_heights] is the only free
    variable of the three functions; it is passed explicitly as their first
    argument, and [probable_heights] below is its value in [consts.py]. *)

From Stdlib Require Import Reals Lra Lia ZArith.
From stdpp Require Import base option gmap strings list fin_maps.

#[local] Open Scope R_scope.

(** ** Exceptions and the error monad *)

Inductive exn : Type :=
  | ZeroDivisionError
  | ValueError
  | TypeError.

Inductive py (A : Type) : Type :=
  | Ok (a : A)
  | Raise (e : exn).
Arguments Ok {A} a.
Arguments Raise {A} e.

Definition py_bind {A B : Type} (m : py A) (k : A -> py B) : py B :=
  match m with
  | Ok a => k a
  | Raise e => Raise e
  end.

Notation "x <-- m ;; k" := (py_bind m (fun x => k))
  (at level 100, m at next level, right associativity,
   format "'[' x  <--  m  ;;  '/' k ']'").

(** ** Arithmetic of the source language *)

(** [a / b] on numbers: raises on a zero divisor. *)
Definition py_div (a b : R) : py R :=
  if Req_dec_T b 0 then Raise ZeroDivisionError else Ok (a / b).

(** Floor of a real, as an integer. *)
Definition py_floor (x : R) : Z := (up x - 1)%Z.

(** [a % b] for a positive divisor [b]: the result has the divisor's sign. *)
Definition py_mod (a b : R) : R := a - b * IZR (py_floor (a / b)).

(** [math.log]. *)
Definition py_log (x : R) : py R :=
  if Rlt_dec 0 x then Ok (ln x) else Raise ValueError.

(** [math.degrees] and [math.radians]. *)
Definition degrees (x : R) : R := x * 180 / PI.
Definition radians (x : R) : R := x * PI / 180.

(** ** consts.py *)

Definition RADIUS : R := 6371000.
Definition FOCAL_LENGTH : R := 22.
Definition SENSOR_WIDTH : R := 7.

Definition probable_heights : gmap string R :=
  list_to_map
    [ ("person", 1.7); ("car", 1.6); ("motorcycle", 1.0); ("truck", 1.8);
      ("airplane", 15.0); ("traffic light", 0.6); ("boat", 30.0) ].

(** ** anubis.py *)

(** The local variables of an entry point that the projection step reads,
    as they stand after the line [target_bearing = math.radians(...)]. *)
Record locals : Type := Locals {
  probable_height : R;
  field_of_view : R;
  distance_to_object : R;
  target_bearing : R
}.

(** Lines 57 and 126: the camera bearing in degrees, brought into one turn. *)
Definition bearing_center_deg (bearing_center : R) : R :=
  py_mod (bearing_center * 180 / PI + 360) 360.

(** Lines 60-63: the height assumed by [get_event_pos]. *)
Definition probable_height_geo (heights : gmap string R)
    (classification : string) (altitude : R) : R :=
  let probable_height := default 1.0 (heights !! classification) in
  if Rlt_dec 40 altitude then probable_height * 2 else probable_height.

(** Line 129: the height assumed by [get_event_local_pos]. *)
Definition probable_height_local (heights : gmap string R)
    (classification : string) : R :=
  default 1.0 (heights !! classification).

(** [get_event_pos], lines 45-72: defaults, camera geometry and bearing. *)
Definition get_event_pos_locals (heights : gmap string R)
    (classification : string) (bearing_center : R)
    (sensor_width_px sensor_height_px target_center_x target_height_px : Z)
    (altitude : R) (focal_length sensor_width : option R) : py locals :=
  let focal_length := default FOCAL_LENGTH focal_length in
  let sensor_width := default SENSOR_WIDTH sensor_width in
  ratio <-- py_div (IZR sensor_height_px) (IZR sensor_width_px) ;;
  let sensor_height := sensor_width * ratio in
  let bearing_center_deg := bearing_center_deg bearing_center in
  let probable_height := probable_height_geo heights classification altitude in
  height_on_sensor <--
    py_div (sensor_height * IZR target_height_px) (IZR sensor_height_px) ;;
  half_tan <-- py_div (sensor_width / 2) focal_length ;;
  let field_of_view := degrees (2 * atan half_tan) in
  distance_to_object <--
    py_div (probable_height * focal_length) height_on_sensor ;;
  px_per_deg <-- py_div (IZR sensor_width_px) field_of_view ;;
  offset <-- py_div (IZR target_center_x) px_per_deg ;;
  let target_bearing_deg := (bearing_center_deg - field_of_view / 2) + offset in
  let target_bearing := radians target_bearing_deg in
  Ok (Locals probable_height field_of_view distance_to_object target_bearing).

(** [get_event_pos], lines 74-82: the rhumb-line destination point. *)
Definition geographic_projection (l : locals) (source_lat source_lon : R)
    : py (list R) :=
  let dr := distance_to_object l / RADIUS in
  let lat_delta := dr * cos (target_bearing l) in
  let target_lat := source_lat + lat_delta in
  ratio <-- py_div (tan (target_lat / 2 + PI / 4))
                   (tan (source_lat / 2 + PI / 4)) ;;
  delta <-- py_log ratio ;;
  q <-- (if Rlt_dec (10 / 10 ^ 12) (Rabs delta)
         then py_div lat_delta delta
         else Ok (cos source_lat)) ;;
  lon_delta <-- py_div (dr * sin (target_bearing l)) q ;;
  let target_lon := source_lon + lon_delta in
  Ok [target_lat; target_lon].

Definition get_event_pos (heights : gmap string R)
    (classification : string) (bearing_center source_lat source_lon : R)
    (sensor_width_px sensor_height_px target_center_x : Z)
    (target_center_y target_width_px : option Z) (target_height_px : Z)
    (altitude : R) (focal_length sensor_width : option R) : py (list R) :=
  l <-- get_event_pos_locals heights classification bearing_center
          sensor_width_px sensor_height_px target_center_x target_height_px
          altitude focal_length sensor_width ;;
  geographic_projection l source_lat source_lon.

(** [get_event_local_pos], lines 114-139: the same steps without the
    altitude rule. *)
Definition get_event_local_pos_locals (heights : gmap string R)
    (classification : string) (bearing_center : R)
    (sensor_width_px sensor_height_px target_center_x target_height_px : Z)
    (focal_length sensor_width : option R) : py locals :=
  let focal_length := default FOCAL_LENGTH focal_length in
  let sensor_width := default SENSOR_WIDTH sensor_width in
  ratio <-- py_div (IZR sensor_height_px) (IZR sensor_width_px) ;;
  let sensor_height := sensor_width * ratio in
  let bearing_center_deg := bearing_center_deg bearing_center in
  let probable_height := probable_height_local heights classification in
  height_on_sensor <--
    py_div (sensor_height * IZR target_height_px) (IZR sensor_height_px) ;;
  half_tan <-- py_div (sensor_width / 2) focal_length ;;
  let field_of_view := degrees (2 * atan half_tan) in
  distance_to_object <--
    py_div (probable_height * focal_length) height_on_sensor ;;
  px_per_deg <-- py_div (IZR sensor_width_px) field_of_view ;;
  offset <-- py_div (IZR target_center_x) px_per_deg ;;
  let target_bearing_deg := (bearing_center_deg - field_of_view / 2) + offset in
  let target_bearing := radians target_bearing_deg in
  Ok (Locals probable_height field_of_view distance_to_object target_bearing).

(** [get_event_local_pos], lines 141-155: X, Y and the vertical offset. *)
Definition local_projection (l : locals)
    (sensor_height_px target_center_y target_height_px : Z) : py (list R) :=
  let targetX := distance_to_object l * cos (target_bearing l) in
  let targetY := distance_to_object l * sin (target_bearing l) in
  px_ratio <-- py_div (IZR sensor_height_px) (IZR target_height_px) ;;
  zconst <-- py_div (px_ratio * probable_height l) (IZR sensor_height_px) ;;
  let targetZ :=
    if Rlt_dec (IZR sensor_height_px / 2) (IZR target_center_y)
    then IZR (sensor_height_px - target_center_y) * zconst
    else (IZR sensor_height_px / 2 - IZR target_center_y) * zconst * -1 in
  Ok [targetX; targetY; targetZ].

Definition get_event_local_pos (heights : gmap string R)
    (classification : string) (bearing_center : R)
    (sensor_width_px sensor_height_px target_center_x target_center_y
       target_height_px : Z)
    (focal_length sensor_width : option R) : py (list R) :=
  l <-- get_event_local_pos_locals heights classification bearing_center
          sensor_width_px sensor_height_px target_center_x target_height_px
          focal_length sensor_width ;;
  local_projection l sensor_height_px target_center_y target_height_px.

Definition does_classifications_have_probable_heights
    (heights : gmap string R) (classification : string) : bool :=
  bool_decide (is_Some (heights !! classification)).

(** ** Keyword calls

    Both entry points are declared keyword-only (a bare star opens their
    parameter lists): every argument is passed by keyword.  A call site is a
    list of keyword arguments, each carrying a value of the annotated type.
    An [Optional] parameter that is not passed takes its default [None]. *)

Inductive kwarg : Type :=
  | kw_classification (v : string)
  | kw_bearing_center (v : R)
  | kw_source_lat (v : R)
  | kw_source_lon (v : R)
  | kw_sensor_width_px (v : Z)
  | kw_sensor_height_px (v : Z)
  | kw_target_center_x (v : Z)
  | kw_target_center_y (v : Z)
  | kw_target_width_px (v : Z)
  | kw_target_height_px (v : Z)
  | kw_altitude (v : R)
  | kw_focal_length (v : R)
  | kw_sensor_width (v : R).

Definition kw_name (k : kwarg) : string :=
  match k with
  | kw_classification _ => "classification"
  | kw_bearing_center _ => "bearing_center"
  | kw_source_lat _ => "source_lat"
  | kw_source_lon _ => "source_lon"
  | kw_sensor_width_px _ => "sensor_width_px"
  | kw_sensor_height_px _ => "sensor_height_px"
  | kw_target_center_x _ => "target_center_x"
  | kw_target_center_y _ => "target_center_y"
  | kw_target_width_px _ => "target_width_px"
  | kw_target_height_px _ => "target_height_px"
  | kw_altitude _ => "altitude"
  | kw_focal_length _ => "focal_length"
  | kw_sensor_width _ => "sensor_width"
  end.

(** The parameter names of the two signatures (lines 7-20 and 84-93). *)
Definition get_event_pos_params : list string :=
  [ "classification"; "bearing_center"; "source_lat"; "source_lon";
    "sensor_width_px"; "sensor_height_px"; "target_center_x";
    "target_center_y"; "target_width_px"; "target_height_px"; "altitude";
    "focal_length"; "sensor_width" ].

Definition get_event_local_pos_params : list string :=
  [ "classification"; "bearing_center"; "sensor_width_px";
    "sensor_height_px"; "target_center_x"; "target_center_y";
    "target_height_px"; "focal_length"; "sensor_width" ].

(** The value passed for a keyword, if any. *)
Fixpoint passed {A : Type} (sel : kwarg -> option A) (kws : list kwarg)
    : option A :=
  match kws with
  | [] => None
  | k :: rest => match sel k with Some v => Some v | None => passed sel rest end
  end.

(** A parameter without default: not passing it is a [TypeError]. *)
Definition required {A : Type} (sel : kwarg -> option A) (kws : list kwarg)
    : py A :=
  match passed sel kws with
  | Some v => Ok v
  | None => Raise TypeError
  end.

(** Every keyword passed must be a parameter, and none is passed twice. *)
Definition check_keywords (params : list string) (kws : list kwarg)
    : py unit :=
  if decide (Forall (fun k => kw_name k ∈ params) kws
             ∧ NoDup (kw_name <$> kws))
  then Ok tt
  else Raise TypeError.

Definition sel_classification (k : kwarg) : option string :=
  match k with kw_classification v => Some v | _ => None end.
Definition sel_bearing_center (k : kwarg) : option R :=
  match k with kw_bearing_center v => Some v | _ => None end.
Definition sel_source_lat (k : kwarg) : option R :=
  match k with kw_source_lat v => Some v | _ => None end.
Definition sel_source_lon (k : kwarg) : option R :=
  match k with kw_source_lon v => Some v | _ => None end.
Definition sel_sensor_width_px (k : kwarg) : option Z :=
  match k with kw_sensor_width_px v => Some v | _ => None end.
Definition sel_sensor_height_px (k : kwarg) : option Z :=
  match k with kw_sensor_height_px v => Some v | _ => None end.
Definition sel_target_center_x (k : kwarg) : option Z :=
  match k with kw_target_center_x v => Some v | _ => None end.
Definition sel_target_center_y (k : kwarg) : option Z :=
  match k with kw_target_center_y v => Some v | _ => None end.
Definition sel_target_width_px (k : kwarg) : option Z :=
  match k with kw_target_width_px v => Some v | _ => None end.
Definition sel_target_height_px (k : kwarg) : option Z :=
  match k with kw_target_height_px v => Some v | _ => None end.
Definition sel_altitude (k : kwarg) : option R :=
  match k with kw_altitude v => Some v | _ => None end.
Definition sel_focal_length (k : kwarg) : option R :=
  match k with kw_focal_length v => Some v | _ => None end.
Definition sel_sensor_width (k : kwarg) : option R :=
  match k with kw_sensor_width v => Some v | _ => None end.

(** [get_event_pos] called with the keyword arguments [kws]. *)
Definition call_get_event_pos (heights : gmap string R) (kws : list kwarg)
    : py (list R) :=
  _ <-- check_keywords get_event_pos_params kws ;;
  classification <-- required sel_classification kws ;;
  bearing_center <-- required sel_bearing_center kws ;;
  source_lat <-- required sel_source_lat kws ;;
  source_lon <-- required sel_source_lon kws ;;
  sensor_width_px <-- required sel_sensor_width_px kws ;;
  sensor_height_px <-- required sel_sensor_height_px kws ;;
  target_center_x <-- required sel_target_center_x kws ;;
  target_height_px <-- required sel_target_height_px kws ;;
  altitude <-- required sel_altitude kws ;;
  get_event_pos heights classification bearing_center source_lat source_lon
    sensor_width_px sensor_height_px target_center_x
    (passed sel_target_center_y kws) (passed sel_target_width_px kws)
    target_height_px altitude
    (passed sel_focal_length kws) (passed sel_sensor_width kws).

(** [get_event_local_pos] called with the keyword arguments [kws]. *)
Definition call_get_event_local_pos (heights : gmap string R)
    (kws : list kwarg) : py (list R) :=
  _ <-- check_keywords get_event_local_pos_params kws ;;
  classification <-- required sel_classification kws ;;
  bearing_center <-- required sel_bearing_center kws ;;
  sensor_width_px <-- required sel_sensor_width_px kws ;;
  sensor_height_px <-- required sel_sensor_height_px kws ;;
  target_center_x <-- required sel_target_center_x kws ;;
  target_center_y <-- required sel_target_center_y kws ;;
  target_height_px <-- required sel_target_height_px kws ;;
  get_event_local_pos heights classification bearing_center
    sensor_width_px sensor_height_px target_center_x target_center_y
    target_height_px
    (passed sel_focal_length kws) (passed sel_sensor_width kws).

(** ** Closed forms and sample inputs *)

(** Positive pixel sizes and positive lens parameters (after defaults). *)
Definition valid_camera (sensor_width_px sensor_height_px target_height_px : Z)
    (focal_length sensor_width : option R) : Prop :=
  (0 < sensor_width_px)%Z /\ (0 < sensor_height_px)%Z
  /\ (0 < target_height_px)%Z
  /\ 0 < default FOCAL_LENGTH focal_length
  /\ 0 < default SENSOR_WIDTH sensor_width.

(** Closed forms of the locals, read off lines 65-72. *)
Definition fov_of (focal_length sensor_width : option R) : R :=
  degrees (2 * atan (default SENSOR_WIDTH sensor_width / 2
                     / default FOCAL_LENGTH focal_length)).

Definition distance_of (height : R)
    (sensor_width_px sensor_height_px target_height_px : Z)
    (focal_length sensor_width : option R) : R :=
  height * default FOCAL_LENGTH focal_length
  / (default SENSOR_WIDTH sensor_width
       * (IZR sensor_height_px / IZR sensor_width_px)
       * IZR target_height_px / IZR sensor_height_px).

Definition bearing_of (bearing_center : R) (sensor_width_px target_center_x : Z)
    (focal_length sensor_width : option R) : R :=
  radians (bearing_center_deg bearing_center
           - fov_of focal_length sensor_width / 2
           + IZR target_center_x
             / (IZR sensor_width_px / fov_of focal_length sensor_width)).

(** Closed form of [zconst], line 146: metres per pixel of the object. *)
Definition zconst_of (height : R) (sensor_height_px target_height_px : Z)
    : R :=
  IZR sensor_height_px / IZR target_height_px * height / IZR sensor_height_px.

(** A table with an entry of height 0, at which the distance estimate is 0. *)
Definition flat_heights : gmap string R := {[ "flat" := 0 ]}.

(** A complete call of [get_event_local_pos]. *)
Definition local_call_hd : list kwarg :=
  [ kw_classification "car"; kw_bearing_center 0; kw_sensor_width_px 1920;
    kw_sensor_height_px 1080; kw_target_center_x 960;
    kw_target_center_y 540; kw_target_height_px 100 ].

(** A complete call of [get_event_pos]. *)
Definition geo_call_hd : list kwarg :=
  [ kw_classification "car"; kw_bearing_center 0; kw_source_lat 0;
    kw_source_lon 0; kw_sensor_width_px 1920; kw_sensor_height_px 1080;
    kw_target_center_x 960; kw_target_height_px 100; kw_altitude 10 ].

(** A camera description on which some division of lines 51-71 has a zero
    divisor. *)
Definition degenerate_camera
    (sensor_width_px sensor_height_px target_height_px : Z)
    (focal_length sensor_width : option R) : Prop :=
  sensor_width_px = 0%Z \/ sensor_height_px = 0%Z \/ target_height_px = 0%Z
  \/ default FOCAL_LENGTH focal_length = 0
  \/ default SENSOR_WIDTH sensor_width = 0.

(** * Properties *)

(** ** The arithmetic primitives *)

Lemma py_div_ok (a b : R) : b <> 0 -> py_div a b = Ok (a / b).
Proof.
  intros Hb. unfold py_div.
  destruct (Req_dec_T b 0); [contradiction | reflexivity].
Qed.

Lemma py_div_zero (a : R) : py_div a 0 = Raise ZeroDivisionError.
Proof.
  unfold py_div. destruct (Req_dec_T 0 0); [reflexivity | contradiction].
Qed.


Lemma py_floor_spec (x : R) : IZR (py_floor x) <= x < IZR (py_floor x) + 1.
Proof.
  unfold py_floor. rewrite minus_IZR.
  destruct (archimed x) as [Hgt Hle]. lra.
Qed.

Lemma py_floor_unique (x : R) (n : Z) :
  IZR n <= x < IZR n + 1 -> py_floor x = n.
Proof.
  intros [Hlo Hhi]. destruct (py_floor_spec x) as [Flo Fhi].
  assert (H1 : (py_floor x < n + 1)%Z).
  { apply lt_IZR. rewrite plus_IZR. lra. }
  assert (H2 : (n < py_floor x + 1)%Z).
  { apply lt_IZR. rewrite plus_IZR. lra. }
  lia.
Qed.

Lemma py_mod_range (a b : R) : 0 < b -> 0 <= py_mod a b < b.
Proof.
  intros Hb. unfold py_mod.
  destruct (py_floor_spec (a / b)) as [Hlo Hhi].
  assert (Ha : a = a / b * b) by (field; lra).
  split; nra.
Qed.


(** ** The camera geometry on valid inputs *)

Lemma IZR_pos (z : Z) : (0 < z)%Z -> 0 < IZR z.
Proof. intros Hz. apply (IZR_lt 0). exact Hz. Qed.

Lemma fov_of_pos (focal_length sensor_width : option R) :
  0 < default FOCAL_LENGTH focal_length ->
  0 < default SENSOR_WIDTH sensor_width ->
  0 < fov_of focal_length sensor_width.
Proof.
  intros Hf Hs. unfold fov_of, degrees.
  set (t := default SENSOR_WIDTH sensor_width / 2
            / default FOCAL_LENGTH focal_length).
  assert (Ht : 0 < t).
  { unfold t. apply Rdiv_lt_0_compat; lra. }
  assert (Ha : 0 < atan t).
  { rewrite <- atan_0. apply atan_increasing. exact Ht. }
  pose proof PI_RGT_0.
  apply Rdiv_lt_0_compat; lra.
Qed.

Lemma height_on_sensor_neq0 (sw : R) (swp shp thp : Z) :
  0 < sw -> (0 < swp)%Z -> (0 < shp)%Z -> (0 < thp)%Z ->
  sw * (IZR shp / IZR swp) * IZR thp / IZR shp <> 0.
Proof.
  intros Hs H1%IZR_pos H2%IZR_pos H3%IZR_pos.
  apply Rgt_not_eq, Rlt_gt.
  repeat first [apply Rdiv_lt_0_compat | apply Rmult_lt_0_compat]; assumption.
Qed.

(** Runs one checked division whose divisor is known to be non-zero. *)
Ltac step_div :=
  rewrite py_div_ok; [cbn [py_bind] | ].

Lemma get_event_pos_locals_ok (heights : gmap string R)
    (classification : string) (bearing_center : R)
    (sensor_width_px sensor_height_px target_center_x target_height_px : Z)
    (altitude : R) (focal_length sensor_width : option R) :
  valid_camera sensor_width_px sensor_height_px target_height_px
    focal_length sensor_width ->
  get_event_pos_locals heights classification bearing_center sensor_width_px
    sensor_height_px target_center_x target_height_px altitude focal_length
    sensor_width
  = Ok (Locals (probable_height_geo heights classification altitude)
          (fov_of focal_length sensor_width)
          (distance_of (probable_height_geo heights classification altitude)
             sensor_width_px sensor_height_px target_height_px focal_length
             sensor_width)
          (bearing_of bearing_center sensor_width_px target_center_x
             focal_length sensor_width)).
Proof.
  intros (Hw & Hh & Ht & Hf & Hs).
  pose proof (fov_of_pos _ _ Hf Hs) as Hfov.
  pose proof (IZR_pos _ Hw) as Hw'. pose proof (IZR_pos _ Hh) as Hh'.
  unfold get_event_pos_locals.
  step_div; [| lra].
  step_div; [| lra].
  step_div; [| lra].
  step_div; [| by apply height_on_sensor_neq0].
  fold (fov_of focal_length sensor_width).
  step_div; [| lra].
  step_div; [reflexivity |].
  apply Rgt_not_eq, Rlt_gt, Rdiv_lt_0_compat; assumption.
Qed.

Lemma get_event_local_pos_locals_ok (heights : gmap string R)
    (classification : string) (bearing_center : R)
    (sensor_width_px sensor_height_px target_center_x target_height_px : Z)
    (focal_length sensor_width : option R) :
  valid_camera sensor_width_px sensor_height_px target_height_px
    focal_length sensor_width ->
  get_event_local_pos_locals heights classification bearing_center
    sensor_width_px sensor_height_px target_center_x target_height_px
    focal_length sensor_width
  = Ok (Locals (probable_height_local heights classification)
          (fov_of focal_length sensor_width)
          (distance_of (probable_height_local heights classification)
             sensor_width_px sensor_height_px target_height_px focal_length
             sensor_width)
          (bearing_of bearing_center sensor_width_px target_center_x
             focal_length sensor_width)).
Proof.
  intros (Hw & Hh & Ht & Hf & Hs).
  pose proof (fov_of_pos _ _ Hf Hs) as Hfov.
  pose proof (IZR_pos _ Hw) as Hw'. pose proof (IZR_pos _ Hh) as Hh'.
  unfold get_event_local_pos_locals.
  step_div; [| lra].
  step_div; [| lra].
  step_div; [| lra].
  step_div; [| by apply height_on_sensor_neq0].
  fold (fov_of focal_length sensor_width).
  step_div; [| lra].
  step_div; [reflexivity |].
  apply Rgt_not_eq, Rlt_gt, Rdiv_lt_0_compat; assumption.
Qed.

Lemma valid_camera_hd : valid_camera 1920 1080 100 None None.
Proof.
  unfold valid_camera, FOCAL_LENGTH, SENSOR_WIDTH.
  cbn [from_option Datatypes.id]. repeat split; first [lia | lra].
Qed.

(** ** Height resolution *)

Lemma probable_heights_car : probable_heights !! "car" = Some 1.6.
Proof. reflexivity. Qed.

Lemma probable_height_car :
  probable_height_geo probable_heights "car" 41 = 3.2
  /\ probable_height_geo probable_heights "car" 40 = 1.6
  /\ probable_height_local probable_heights "car" = 1.6.
Proof.
  unfold probable_height_geo, probable_height_local.
  rewrite probable_heights_car. cbn [from_option Datatypes.id].
  repeat split.
  - destruct (Rlt_dec 40 41); lra.
  - destruct (Rlt_dec 40 40); lra.
Qed.

(** Every height of the table of [consts.py], and the default, is positive. *)
Lemma probable_heights_positive (classification : string) :
  0 < default 1.0 (probable_heights !! classification).
Proof.
  unfold probable_heights. cbn [list_to_map foldr uncurry fst snd].
  repeat (rewrite lookup_insert; case_decide;
          [cbn [from_option Datatypes.id]; lra |]).
  rewrite lookup_empty. cbn [from_option Datatypes.id]. lra.
Qed.

Lemma altitude_not_local_param : "altitude" ∉ get_event_local_pos_params.
Proof.
  unfold get_event_local_pos_params. intros H.
  repeat (apply elem_of_cons in H as [H | H]; [discriminate |]).
  by apply elem_of_nil in H.
Qed.

(** C1. For "car" (table height 1.6 m) [get_event_pos] assumes the height
    3.2 m at altitude 41 and 1.6 m at altitude 40, the test [altitude > 40]
    being strict; [get_event_local_pos] assumes 1.6 m, and it has no
    altitude input: a call that passes [altitude] is rejected. *)
Theorem altitude_doubling_is_asymmetric (bearing_center : R)
    (sensor_width_px sensor_height_px target_center_x target_height_px : Z)
    (focal_length sensor_width : option R) :
  valid_camera sensor_width_px sensor_height_px target_height_px
    focal_length sensor_width ->
  (exists l,
      get_event_pos_locals probable_heights "car" bearing_center
        sensor_width_px sensor_height_px target_center_x target_height_px
        41 focal_length sensor_width = Ok l
      /\ probable_height l = 3.2)
  /\ (exists l,
      get_event_pos_locals probable_heights "car" bearing_center
        sensor_width_px sensor_height_px target_center_x target_height_px
        40 focal_length sensor_width = Ok l
      /\ probable_height l = 1.6)
  /\ (exists l,
      get_event_local_pos_locals probable_heights "car" bearing_center
        sensor_width_px sensor_height_px target_center_x target_height_px
        focal_length sensor_width = Ok l
      /\ probable_height l = 1.6)
  /\ (forall (kws : list kwarg) (altitude : R),
      kw_altitude altitude ∈ kws ->
      call_get_event_local_pos probable_heights kws = Raise TypeError).
Proof.
  intros Hv. destruct probable_height_car as (H41 & H40 & Hlocal).
  repeat split.
  - eexists. split; [by apply get_event_pos_locals_ok | exact H41].
  - eexists. split; [by apply get_event_pos_locals_ok | exact H40].
  - eexists. split; [by apply get_event_local_pos_locals_ok | exact Hlocal].
  - intros kws altitude Hin. unfold call_get_event_local_pos, check_keywords.
    rewrite decide_False; [reflexivity |].
    intros [HF _]. rewrite Forall_forall in HF.
    apply (altitude_not_local_param (HF _ Hin)).
Qed.

Lemma altitude_doubling_is_asymmetric_witness :
  (exists l,
      get_event_pos_locals probable_heights "car" 0 1920 1080 960 100 41
        None None = Ok l
      /\ probable_height l = 3.2)
  /\ (exists l,
      get_event_pos_locals probable_heights "car" 0 1920 1080 960 100 40
        None None = Ok l
      /\ probable_height l = 1.6)
  /\ (exists l,
      get_event_local_pos_locals probable_heights "car" 0 1920 1080 960 100
        None None = Ok l
      /\ probable_height l = 1.6).
Proof.
  destruct (altitude_doubling_is_asymmetric 0 1920 1080 960 100 None None)
    as (H41 & H40 & Hlocal & _).
  - exact valid_camera_hd.
  - exact (conj H41 (conj H40 Hlocal)).
Defined.

(** ** Bearing normalisation *)

(** C4. For every real camera bearing, the degree value
    [(degrees(bearing_center) + 360) mod 360] lies in [[0, 360)]. *)
Theorem bearing_center_deg_range (bearing_center : R) :
  0 <= bearing_center_deg bearing_center < 360.
Proof. unfold bearing_center_deg. apply py_mod_range. lra. Qed.

(** ** Distance estimate *)

Lemma distance_of_pos (height : R) (swp shp thp : Z) (fl sw : option R) :
  0 < height -> valid_camera swp shp thp fl sw ->
  0 < distance_of height swp shp thp fl sw.
Proof.
  intros Hh (Hw%IZR_pos & Hs%IZR_pos & Ht%IZR_pos & Hf & Hsw).
  unfold distance_of.
  repeat first [apply Rdiv_lt_0_compat | apply Rmult_lt_0_compat]; assumption.
Qed.

Lemma probable_height_geo_pos (heights : gmap string R) (c : string)
    (altitude : R) :
  0 < probable_height_local heights c ->
  0 < probable_height_geo heights c altitude.
Proof.
  unfold probable_height_local, probable_height_geo. intros H.
  destruct (Rlt_dec 40 altitude); lra.
Qed.

(** C6. With a positive assumed height, a positive target height in pixels
    and positive sensor sizes and lens parameters, both entry points reach a
    strictly positive [distance_to_object]. *)
Theorem distance_to_object_positive (heights : gmap string R)
    (classification : string) (bearing_center : R)
    (sensor_width_px sensor_height_px target_center_x target_height_px : Z)
    (altitude : R) (focal_length sensor_width : option R) :
  0 < default 1.0 (heights !! classification) ->
  valid_camera sensor_width_px sensor_height_px target_height_px
    focal_length sensor_width ->
  (exists l,
      get_event_pos_locals heights classification bearing_center
        sensor_width_px sensor_height_px target_center_x target_height_px
        altitude focal_length sensor_width = Ok l
      /\ 0 < distance_to_object l)
  /\ (exists l,
      get_event_local_pos_locals heights classification bearing_center
        sensor_width_px sensor_height_px target_center_x target_height_px
        focal_length sensor_width = Ok l
      /\ 0 < distance_to_object l).
Proof.
  intros Hh Hv. split.
  - eexists. split; [by apply get_event_pos_locals_ok |].
    cbn [distance_to_object].
    by apply distance_of_pos; [apply probable_height_geo_pos |].
  - eexists. split; [by apply get_event_local_pos_locals_ok |].
    cbn [distance_to_object]. by apply distance_of_pos.
Qed.

Lemma distance_to_object_positive_witness :
  (exists l,
      get_event_pos_locals probable_heights "car" 0 1920 1080 960 100 10
        None None = Ok l
      /\ 0 < distance_to_object l)
  /\ (exists l,
      get_event_local_pos_locals probable_heights "car" 0 1920 1080 960 100
        None None = Ok l
      /\ 0 < distance_to_object l).
Proof.
  apply (distance_to_object_positive probable_heights "car" 0 1920 1080 960
           100 10 None None).
  - apply probable_heights_positive.
  - exact valid_camera_hd.
Defined.

(** ** Classification membership *)

(** C7. The helper answers true exactly for the keys of the height table;
    with the table of [consts.py], whose keys are person, car, motorcycle,
    truck, airplane, traffic light and boat, it is true for "car" and false
    for "bicycle". *)
Theorem known_height_iff_key :
  (forall (heights : gmap string R) (classification : string),
      does_classifications_have_probable_heights heights classification = true
      <-> classification ∈ dom heights)
  /\ does_classifications_have_probable_heights probable_heights "car" = true
  /\ does_classifications_have_probable_heights probable_heights "bicycle"
     = false
  /\ dom probable_heights
     = ({[ "person"; "car"; "motorcycle"; "truck"; "airplane";
           "traffic light"; "boat" ]} : gset string).
Proof.
  split; [| split; [| split]].
  - intros heights c. unfold does_classifications_have_probable_heights.
    rewrite bool_decide_eq_true. symmetry. apply elem_of_dom.
  - reflexivity.
  - reflexivity.
  - unfold probable_heights. rewrite dom_list_to_map_L.
    cbn [fmap list_fmap fst].
    set_solver.
Qed.

(** ** Unknown classifications *)




(** ** Independence of the sensor height in pixels *)




(** ** The local projector *)

Lemma get_event_local_pos_ok (heights : gmap string R)
    (classification : string) (bearing_center : R)
    (sensor_width_px sensor_height_px target_center_x target_center_y
       target_height_px : Z)
    (focal_length sensor_width : option R) :
  valid_camera sensor_width_px sensor_height_px target_height_px
    focal_length sensor_width ->
  let height := probable_height_local heights classification in
  let distance :=
    distance_of height sensor_width_px sensor_height_px target_height_px
      focal_length sensor_width in
  let bearing :=
    bearing_of bearing_center sensor_width_px target_center_x focal_length
      sensor_width in
  let zconst := zconst_of height sensor_height_px target_height_px in
  get_event_local_pos heights classification bearing_center sensor_width_px
    sensor_height_px target_center_x target_center_y target_height_px
    focal_length sensor_width
  = Ok [ distance * cos bearing; distance * sin bearing;
         if Rlt_dec (IZR sensor_height_px / 2) (IZR target_center_y)
         then IZR (sensor_height_px - target_center_y) * zconst
         else (IZR sensor_height_px / 2 - IZR target_center_y) * zconst * -1 ].
Proof.
  intros Hv. pose proof Hv as (Hw & Hh%IZR_pos & Ht%IZR_pos & Hf & Hs).
  unfold get_event_local_pos.
  rewrite get_event_local_pos_locals_ok by assumption.
  cbn [py_bind]. unfold local_projection.
  step_div; [| lra]. step_div; [| lra].
  reflexivity.
Qed.

Lemma zconst_of_pos (height : R) (shp thp : Z) :
  0 < height -> (0 < shp)%Z -> (0 < thp)%Z -> 0 < zconst_of height shp thp.
Proof.
  intros Hh Hs%IZR_pos Ht%IZR_pos. unfold zconst_of.
  repeat first [apply Rdiv_lt_0_compat | apply Rmult_lt_0_compat]; assumption.
Qed.

(** C5. On valid inputs with a positive assumed height the local projector
    returns [[x, y, z]] where [z] is
    [(sensor_height_px - target_center_y) * zconst] exactly when
    [target_center_y > sensor_height_px / 2], and
    [(sensor_height_px / 2 - target_center_y) * zconst * -1] otherwise; with
    [sensor_height_px = 1000] it is positive at [target_center_y = 700] and
    negative at [target_center_y = 300]. *)
Theorem vertical_sign_convention (heights : gmap string R)
    (classification : string) (bearing_center : R)
    (sensor_width_px sensor_height_px target_center_x target_center_y
       target_height_px : Z)
    (focal_length sensor_width : option R) :
  0 < default 1.0 (heights !! classification) ->
  valid_camera sensor_width_px sensor_height_px target_height_px
    focal_length sensor_width ->
  let zconst :=
    zconst_of (default 1.0 (heights !! classification)) sensor_height_px
      target_height_px in
  exists x y z,
    get_event_local_pos heights classification bearing_center
      sensor_width_px sensor_height_px target_center_x target_center_y
      target_height_px focal_length sensor_width = Ok [x; y; z]
    /\ (IZR sensor_height_px / 2 < IZR target_center_y ->
        z = IZR (sensor_height_px - target_center_y) * zconst)
    /\ (~ IZR sensor_height_px / 2 < IZR target_center_y ->
        z = (IZR sensor_height_px / 2 - IZR target_center_y) * zconst * -1)
    /\ (sensor_height_px = 1000%Z -> target_center_y = 700%Z -> 0 < z)
    /\ (sensor_height_px = 1000%Z -> target_center_y = 300%Z -> z < 0).
Proof.
  intros Hh Hv zconst.
  pose proof Hv as (_ & Hs & Ht & _).
  pose proof (zconst_of_pos _ _ _ Hh Hs Ht) as Hz. fold zconst in Hz.
  do 3 eexists. split; [by apply get_event_local_pos_ok |].
  fold (probable_height_local heights classification) in zconst |- *.
  fold zconst.
  destruct (Rlt_dec (IZR sensor_height_px / 2) (IZR target_center_y))
    as [Hlow | Hup].
  - repeat split; try done.
    + intros -> ->. apply Rmult_lt_0_compat; [| exact Hz].
      apply IZR_pos. lia.
    + intros -> ->. lra.
  - repeat split; try done.
    + intros -> ->. lra.
    + intros -> ->. nra.
Qed.

Lemma vertical_sign_convention_witness :
  exists x y z,
    get_event_local_pos probable_heights "car" 0 1920 1000 960 700 100
      None None = Ok [x; y; z]
    /\ 0 < z.
Proof.
  destruct (vertical_sign_convention probable_heights "car" 0 1920 1000 960
              700 100 None None) as (x & y & z & Hrun & _ & _ & Hpos & _).
  - rewrite probable_heights_car. cbn [from_option Datatypes.id]. lra.
  - unfold valid_camera, FOCAL_LENGTH, SENSOR_WIDTH.
    cbn [from_option Datatypes.id]. repeat split; first [lia | lra].
  - exists x, y, z. split; [exact Hrun | by apply Hpos].
Defined.

(** ** Bearing of a centred detection *)

Lemma degrees_radians (x : R) : radians (degrees x) = x.
Proof. unfold radians, degrees. pose proof PI_neq0. field. assumption. Qed.

(** Inside one turn the normalisation changes nothing. *)
Lemma bearing_center_deg_one_turn (bearing_center : R) :
  0 <= bearing_center < 2 * PI ->
  bearing_center_deg bearing_center = degrees bearing_center.
Proof.
  intros [Hlo Hhi]. pose proof PI_RGT_0 as Hpi.
  unfold bearing_center_deg, py_mod, degrees.
  set (d := bearing_center * 180 / PI).
  assert (Hd : 0 <= d < 360).
  { unfold d. split.
    - apply Rmult_le_pos; [lra |]. left. by apply Rinv_0_lt_compat.
    - apply (Rmult_lt_reg_r PI); [lra |]. field_simplify; lra. }
  rewrite (py_floor_unique ((d + 360) / 360) 1); lra.
Qed.

(** On the camera axis the pixel offset is half the field of view. *)
Lemma bearing_of_centred (bearing_center : R)
    (sensor_width_px target_center_x : Z)
    (focal_length sensor_width : option R) :
  (0 < sensor_width_px)%Z ->
  0 < fov_of focal_length sensor_width ->
  (2 * target_center_x = sensor_width_px)%Z ->
  bearing_of bearing_center sensor_width_px target_center_x focal_length
    sensor_width
  = radians (bearing_center_deg bearing_center).
Proof.
  intros Hw%IZR_pos Hfov Hx. unfold bearing_of. f_equal.
  rewrite <- Hx in *. rewrite mult_IZR in *. field. lra.
Qed.




(** ** The geographic projector at distance zero *)







(** ** Parameters without effect *)

Lemma target_width_px_not_local_param :
  "target_width_px" ∉ get_event_local_pos_params.
Proof.
  unfold get_event_local_pos_params. intros H.
  repeat (apply elem_of_cons in H as [H | H]; [discriminate |]).
  by apply elem_of_nil in H.
Qed.

Lemma check_keywords_extend (params : list string) (k : kwarg)
    (kws : list kwarg) :
  kw_name k ∈ params -> kw_name k ∉ kw_name <$> kws ->
  check_keywords params (k :: kws) = check_keywords params kws.
Proof.
  intros Hin Hfresh. unfold check_keywords.
  destruct (decide (Forall (fun k => kw_name k ∈ params) kws
                    ∧ NoDup (kw_name <$> kws))) as [[HF HN] | Hno].
  - rewrite decide_True; [reflexivity |]. split.
    + by constructor.
    + rewrite fmap_cons. by constructor.
  - rewrite decide_False; [reflexivity |]. intros [HF HN]. apply Hno. split.
    + by inversion HF.
    + rewrite fmap_cons in HN. by inversion HN.
Qed.

(** C9, amended.  [get_event_pos] accepts [target_center_y] and
    [target_width_px] and its result does not depend on them, whether they
    are passed or not and whatever their values; [get_event_local_pos] has
    no parameter [target_width_px], and a call that passes it raises
    [TypeError]. *)
Theorem unused_parameters_have_no_effect :
  (forall (heights : gmap string R) (classification : string)
          (bearing_center source_lat source_lon : R)
          (sensor_width_px sensor_height_px target_center_x : Z)
          (target_center_y target_width_px
             target_center_y' target_width_px' : option Z)
          (target_height_px : Z) (altitude : R)
          (focal_length sensor_width : option R),
      get_event_pos heights classification bearing_center source_lat
        source_lon sensor_width_px sensor_height_px target_center_x
        target_center_y target_width_px target_height_px altitude
        focal_length sensor_width
      = get_event_pos heights classification bearing_center source_lat
          source_lon sensor_width_px sensor_height_px target_center_x
          target_center_y' target_width_px' target_height_px altitude
          focal_length sensor_width)
  /\ (forall (heights : gmap string R) (kws : list kwarg) (y w : Z),
      "target_center_y" ∉ kw_name <$> kws ->
      "target_width_px" ∉ kw_name <$> kws ->
      call_get_event_pos heights
        (kw_target_center_y y :: kw_target_width_px w :: kws)
      = call_get_event_pos heights kws)
  /\ (forall (heights : gmap string R) (kws : list kwarg) (w : Z),
      kw_target_width_px w ∈ kws ->
      call_get_event_local_pos heights kws = Raise TypeError).
Proof.
  split; [| split].
  - reflexivity.
  - intros heights kws y w Hy Hw. unfold call_get_event_pos.
    rewrite !check_keywords_extend.
    + reflexivity.
    + cbn. unfold get_event_pos_params. set_solver.
    + exact Hw.
    + cbn. unfold get_event_pos_params. set_solver.
    + rewrite fmap_cons. cbn [kw_name]. intros Hin.
      apply elem_of_cons in Hin as [Heq | Hin]; [discriminate | contradiction].
  - intros heights kws w Hin. unfold call_get_event_local_pos, check_keywords.
    rewrite decide_False; [reflexivity |].
    intros [HF _]. rewrite Forall_forall in HF.
    apply (target_width_px_not_local_param (HF _ Hin)).
Qed.

Lemma unused_parameters_have_no_effect_witness :
  call_get_event_pos probable_heights
    (kw_target_center_y 540 :: kw_target_width_px 50 :: geo_call_hd)
  = call_get_event_pos probable_heights geo_call_hd
  /\ call_get_event_local_pos probable_heights
       (kw_target_width_px 50 :: local_call_hd)
     = Raise TypeError.
Proof.
  destruct unused_parameters_have_no_effect as (_ & Hgeo & Hlocal).
  split.
  - apply Hgeo; unfold geo_call_hd; cbn [fmap list_fmap kw_name];
      apply (bool_decide_unpack _); by vm_compute.
  - apply (Hlocal _ _ 50%Z). apply list_elem_of_here.
Defined.

Lemma local_call_hd_keywords :
  check_keywords get_event_local_pos_params local_call_hd = Ok tt.
Proof.
  unfold check_keywords. rewrite decide_True; [reflexivity |]. split.
  - unfold local_call_hd, get_event_local_pos_params.
    repeat constructor; cbn [kw_name]; set_solver.
  - unfold local_call_hd. cbn [fmap list_fmap kw_name].
    apply (bool_decide_unpack _). by vm_compute.
Qed.

(** C9 as stated fails on the local entry point: the call above returns a
    position, and the same call with [target_width_px] added raises. *)
Lemma target_width_px_counterexample :
  (exists r, call_get_event_local_pos probable_heights local_call_hd = Ok r)
  /\ call_get_event_local_pos probable_heights
       (kw_target_width_px 50 :: local_call_hd)
     = Raise TypeError.
Proof.
  split.
  - unfold call_get_event_local_pos. rewrite local_call_hd_keywords.
    cbn [py_bind local_call_hd required passed sel_classification
         sel_bearing_center sel_sensor_width_px sel_sensor_height_px
         sel_target_center_x sel_target_center_y sel_target_height_px
         sel_focal_length sel_sensor_width].
    rewrite get_event_local_pos_ok by exact valid_camera_hd.
    eexists. reflexivity.
  - unfold call_get_event_local_pos, check_keywords.
    rewrite decide_False; [reflexivity |].
    intros [HF _]. apply Forall_cons_1 in HF as [HF _].
    exact (target_width_px_not_local_param HF).
Qed.

(** * Further properties of the entry points *)

(** ** Which calls raise *)

Lemma degenerate_camera_dec (swp shp thp : Z) (fl sw : option R) :
  degenerate_camera swp shp thp fl sw
  \/ (IZR swp <> 0 /\ IZR shp <> 0 /\ IZR thp <> 0
      /\ default FOCAL_LENGTH fl <> 0 /\ default SENSOR_WIDTH sw <> 0).
Proof.
  unfold degenerate_camera.
  destruct (Z.eq_dec swp 0%Z) as [-> | Hw]; [tauto |].
  destruct (Z.eq_dec shp 0%Z) as [-> | Hh]; [tauto |].
  destruct (Z.eq_dec thp 0%Z) as [-> | Ht]; [tauto |].
  destruct (Req_dec_T (default FOCAL_LENGTH fl) 0) as [-> | Hf]; [tauto |].
  destruct (Req_dec_T (default SENSOR_WIDTH sw) 0) as [-> | Hs]; [tauto |].
  right. repeat split; try assumption; by apply not_0_IZR.
Qed.

Lemma fov_of_neq0 (fl sw : option R) :
  default FOCAL_LENGTH fl <> 0 -> default SENSOR_WIDTH sw <> 0 ->
  fov_of fl sw <> 0.
Proof.
  intros Hf Hs Hfov. unfold fov_of, degrees in Hfov.
  pose proof PI_neq0 as Hpi.
  assert (Ha :
    atan (default SENSOR_WIDTH sw / 2 / default FOCAL_LENGTH fl) = 0).
  { apply (Rmult_eq_reg_l (2 * 180 / PI)).
    - rewrite Rmult_0_r, <- Hfov. field. assumption.
    - intros E. apply (Rmult_eq_compat_r PI) in E.
      field_simplify in E; [lra | assumption]. }
  apply atan_eq0 in Ha.
  apply (Rmult_eq_compat_r (default FOCAL_LENGTH fl)) in Ha.
  field_simplify in Ha; [lra | assumption].
Qed.

Lemma height_on_sensor_neq0' (sw : R) (swp shp thp : Z) :
  sw <> 0 -> IZR swp <> 0 -> IZR shp <> 0 -> IZR thp <> 0 ->
  sw * (IZR shp / IZR swp) * IZR thp / IZR shp <> 0.
Proof.
  intros Hs Hw Hh Ht.
  replace (sw * (IZR shp / IZR swp) * IZR thp / IZR shp)
    with (sw * IZR thp * / IZR swp) by (field; split; assumption).
  repeat apply Rmult_integral_contrapositive_currified; try assumption.
  by apply Rinv_neq_0_compat.
Qed.

(** Destructs the next checked division of the goal. *)
Ltac case_div :=
  match goal with
  | |- context [py_div ?a ?b] =>
      unfold py_div at 1;
      let E := fresh "E" in
      destruct (Req_dec_T b 0) as [E | E]; cbn [py_bind]
  end.

Lemma get_event_pos_locals_degenerate (heights : gmap string R)
    (classification : string) (bearing_center : R)
    (sensor_width_px sensor_height_px target_center_x target_height_px : Z)
    (altitude : R) (focal_length sensor_width : option R) :
  degenerate_camera sensor_width_px sensor_height_px target_height_px
    focal_length sensor_width ->
  get_event_pos_locals heights classification bearing_center sensor_width_px
    sensor_height_px target_center_x target_height_px altitude focal_length
    sensor_width = Raise ZeroDivisionError.
Proof.
  intros Hdeg. unfold get_event_pos_locals.
  repeat (case_div; [reflexivity |]).
  exfalso.
  destruct Hdeg as [-> | [-> | [-> | [Hz | Hz]]]].
  - by apply E.
  - by apply E0.
  - apply E2. change (IZR 0) with 0. unfold Rdiv. ring.
  - by apply E1.
  - apply E2. rewrite Hz. unfold Rdiv. ring.
Qed.

Lemma get_event_local_pos_locals_degenerate (heights : gmap string R)
    (classification : string) (bearing_center : R)
    (sensor_width_px sensor_height_px target_center_x target_height_px : Z)
    (focal_length sensor_width : option R) :
  degenerate_camera sensor_width_px sensor_height_px target_height_px
    focal_length sensor_width ->
  get_event_local_pos_locals heights classification bearing_center
    sensor_width_px sensor_height_px target_center_x target_height_px
    focal_length sensor_width = Raise ZeroDivisionError.
Proof.
  intros Hdeg. unfold get_event_local_pos_locals.
  repeat (case_div; [reflexivity |]).
  exfalso.
  destruct Hdeg as [-> | [-> | [-> | [Hz | Hz]]]].
  - by apply E.
  - by apply E0.
  - apply E2. change (IZR 0) with 0. unfold Rdiv. ring.
  - by apply E1.
  - apply E2. rewrite Hz. unfold Rdiv. ring.
Qed.

Lemma get_event_pos_locals_nonzero (heights : gmap string R)
    (classification : string) (bearing_center : R)
    (sensor_width_px sensor_height_px target_center_x target_height_px : Z)
    (altitude : R) (focal_length sensor_width : option R) :
  ~ degenerate_camera sensor_width_px sensor_height_px target_height_px
      focal_length sensor_width ->
  get_event_pos_locals heights classification bearing_center sensor_width_px
    sensor_height_px target_center_x target_height_px altitude focal_length
    sensor_width
  = Ok (Locals (probable_height_geo heights classification altitude)
          (fov_of focal_length sensor_width)
          (distance_of (probable_height_geo heights classification altitude)
             sensor_width_px sensor_height_px target_height_px focal_length
             sensor_width)
          (bearing_of bearing_center sensor_width_px target_center_x
             focal_length sensor_width)).
Proof.
  intros Hnd.
  destruct (degenerate_camera_dec sensor_width_px sensor_height_px
              target_height_px focal_length sensor_width)
    as [Hd | (Hw & Hh & Ht & Hf & Hs)]; [contradiction |].
  pose proof (fov_of_neq0 _ _ Hf Hs) as Hfov.
  unfold get_event_pos_locals.
  step_div; [| assumption].
  step_div; [| assumption].
  step_div; [| assumption].
  step_div; [| by apply height_on_sensor_neq0'].
  fold (fov_of focal_length sensor_width).
  step_div; [| assumption].
  step_div; [reflexivity |].
  unfold Rdiv. apply Rmult_integral_contrapositive_currified;
    [assumption | by apply Rinv_neq_0_compat].
Qed.

Lemma get_event_local_pos_locals_nonzero (heights : gmap string R)
    (classification : string) (bearing_center : R)
    (sensor_width_px sensor_height_px target_center_x target_height_px : Z)
    (focal_length sensor_width : option R) :
  ~ degenerate_camera sensor_width_px sensor_height_px target_height_px
      focal_length sensor_width ->
  get_event_local_pos_locals heights classification bearing_center
    sensor_width_px sensor_height_px target_center_x target_height_px
    focal_length sensor_width
  = Ok (Locals (probable_height_local heights classification)
          (fov_of focal_length sensor_width)
          (distance_of (probable_height_local heights classification)
             sensor_width_px sensor_height_px target_height_px focal_length
             sensor_width)
          (bearing_of bearing_center sensor_width_px target_center_x
             focal_length sensor_width)).
Proof.
  intros Hnd.
  destruct (degenerate_camera_dec sensor_width_px sensor_height_px
              target_height_px focal_length sensor_width)
    as [Hd | (Hw & Hh & Ht & Hf & Hs)]; [contradiction |].
  pose proof (fov_of_neq0 _ _ Hf Hs) as Hfov.
  unfold get_event_local_pos_locals.
  step_div; [| assumption].
  step_div; [| assumption].
  step_div; [| assumption].
  step_div; [| by apply height_on_sensor_neq0'].
  fold (fov_of focal_length sensor_width).
  step_div; [| assumption].
  step_div; [reflexivity |].
  unfold Rdiv. apply Rmult_integral_contrapositive_currified;
    [assumption | by apply Rinv_neq_0_compat].
Qed.

Lemma get_event_local_pos_nonzero (heights : gmap string R)
    (classification : string) (bearing_center : R)
    (sensor_width_px sensor_height_px target_center_x target_center_y
       target_height_px : Z)
    (focal_length sensor_width : option R) :
  ~ degenerate_camera sensor_width_px sensor_height_px target_height_px
      focal_length sensor_width ->
  let height := probable_height_local heights classification in
  let distance :=
    distance_of height sensor_width_px sensor_height_px target_height_px
      focal_length sensor_width in
  let bearing :=
    bearing_of bearing_center sensor_width_px target_center_x focal_length
      sensor_width in
  let zconst := zconst_of height sensor_height_px target_height_px in
  get_event_local_pos heights classification bearing_center sensor_width_px
    sensor_height_px target_center_x target_center_y target_height_px
    focal_length sensor_width
  = Ok [ distance * cos bearing; distance * sin bearing;
         if Rlt_dec (IZR sensor_height_px / 2) (IZR target_center_y)
         then IZR (sensor_height_px - target_center_y) * zconst
         else (IZR sensor_height_px / 2 - IZR target_center_y) * zconst * -1 ].
Proof.
  intros Hnd.
  destruct (degenerate_camera_dec sensor_width_px sensor_height_px
              target_height_px focal_length sensor_width)
    as [Hd | (Hw & Hh & Ht & Hf & Hs)]; [contradiction |].
  unfold get_event_local_pos.
  rewrite get_event_local_pos_locals_nonzero by assumption.
  cbn [py_bind]. unfold local_projection.
  step_div; [| assumption]. step_div; [| assumption].
  reflexivity.
Qed.

(** X1. If any of [sensor_width_px], [sensor_height_px], [target_height_px],
    the focal length or the sensor width (after defaults) is zero, both
    entry points raise [ZeroDivisionError], whatever the other arguments. *)
Theorem degenerate_camera_raises (heights : gmap string R)
    (classification : string) (bearing_center source_lat source_lon : R)
    (sensor_width_px sensor_height_px target_center_x target_center_y : Z)
    (target_center_y' target_width_px : option Z) (target_height_px : Z)
    (altitude : R) (focal_length sensor_width : option R) :
  degenerate_camera sensor_width_px sensor_height_px target_height_px
    focal_length sensor_width ->
  get_event_pos heights classification bearing_center source_lat source_lon
    sensor_width_px sensor_height_px target_center_x target_center_y'
    target_width_px target_height_px altitude focal_length sensor_width
  = Raise ZeroDivisionError
  /\ get_event_local_pos heights classification bearing_center
       sensor_width_px sensor_height_px target_center_x target_center_y
       target_height_px focal_length sensor_width
     = Raise ZeroDivisionError.
Proof.
  intros Hdeg. unfold get_event_pos, get_event_local_pos.
  rewrite get_event_pos_locals_degenerate,
    get_event_local_pos_locals_degenerate by assumption.
  split; reflexivity.
Qed.

Lemma degenerate_camera_raises_witness :
  get_event_pos probable_heights "car" 0 0 0 1920 1080 960 None None 0 10
    None None = Raise ZeroDivisionError
  /\ get_event_local_pos probable_heights "car" 0 1920 1080 960 540 0 None
       None = Raise ZeroDivisionError.
Proof.
  apply (degenerate_camera_raises probable_heights "car" 0 0 0 1920 1080 960
           540 None None 0 10 None None).
  unfold degenerate_camera. right. right. left. reflexivity.
Defined.

(** X2. [get_event_local_pos] returns a list [[x, y, z]] exactly when none
    of [sensor_width_px], [sensor_height_px], [target_height_px], the focal
    length and the sensor width (after defaults) is zero; negative values
    are not rejected. *)
Theorem get_event_local_pos_returns_iff (heights : gmap string R)
    (classification : string) (bearing_center : R)
    (sensor_width_px sensor_height_px target_center_x target_center_y
       target_height_px : Z)
    (focal_length sensor_width : option R) :
  (exists x y z,
      get_event_local_pos heights classification bearing_center
        sensor_width_px sensor_height_px target_center_x target_center_y
        target_height_px focal_length sensor_width = Ok [x; y; z])
  <-> ~ degenerate_camera sensor_width_px sensor_height_px target_height_px
          focal_length sensor_width.
Proof.
  split.
  - intros (x & y & z & Hrun) Hdeg.
    unfold get_event_local_pos in Hrun.
    rewrite get_event_local_pos_locals_degenerate in Hrun by assumption.
    discriminate.
  - intros Hnd. do 3 eexists. by apply get_event_local_pos_nonzero.
Qed.

(** ** The geographic projector near and away from the poles *)

Lemma geographic_projection_south_pole (l : locals) (source_lon : R) :
  geographic_projection l (- PI / 2) source_lon = Raise ZeroDivisionError.
Proof.
  unfold geographic_projection.
  replace (- PI / 2 / 2 + PI / 4) with 0 by field.
  by rewrite tan_0, py_div_zero.
Qed.

(** X3. With the camera at the south pole ([source_lat = - pi / 2]) every
    call of [get_event_pos] raises [ZeroDivisionError]: the divisor of
    line 77 is [tan 0]. *)
Theorem south_pole_always_raises (heights : gmap string R)
    (classification : string) (bearing_center source_lon : R)
    (sensor_width_px sensor_height_px target_center_x : Z)
    (target_center_y target_width_px : option Z) (target_height_px : Z)
    (altitude : R) (focal_length sensor_width : option R) :
  get_event_pos heights classification bearing_center (- PI / 2) source_lon
    sensor_width_px sensor_height_px target_center_x target_center_y
    target_width_px target_height_px altitude focal_length sensor_width
  = Raise ZeroDivisionError.
Proof.
  unfold get_event_pos.
  destruct (degenerate_camera_dec sensor_width_px sensor_height_px
              target_height_px focal_length sensor_width) as [Hd | Hnz].
  - by rewrite get_event_pos_locals_degenerate.
  - rewrite get_event_pos_locals_nonzero.
    + cbn [py_bind]. apply geographic_projection_south_pole.
    + unfold degenerate_camera.
      destruct Hnz as (Hw & Hh & Ht & Hf & Hs).
      intros [-> | [-> | [-> | [Hz | Hz]]]]; by auto.
Qed.

Lemma quarter_shift_range (lat : R) :
  - PI / 2 < lat < PI / 2 -> 0 < lat / 2 + PI / 4 < PI / 2.
Proof. intros [Hlo Hhi]. split; lra. Qed.



Lemma not_degenerate_hd : ~ degenerate_camera 1920 1080 100 None None.
Proof.
  unfold degenerate_camera, FOCAL_LENGTH, SENSOR_WIDTH.
  cbn [from_option Datatypes.id].
  intros [H | [H | [H | [H | H]]]]; first [discriminate | lra].
Qed.

Lemma bearing_of_hd_centre : bearing_of 0 1920 960 None None = 0.
Proof.
  pose proof PI_RGT_0.
  rewrite bearing_of_centred; [| lia | | lia].
  - rewrite bearing_center_deg_one_turn by lra. apply degrees_radians.
  - apply fov_of_pos; unfold FOCAL_LENGTH, SENSOR_WIDTH;
      cbn [from_option Datatypes.id]; lra.
Qed.


Lemma geographic_projection_overshoot (l : locals)
    (source_lat source_lon : R) :
  let dr := distance_to_object l / RADIUS in
  let target_lat := source_lat + dr * cos (target_bearing l) in
  - PI / 2 < source_lat < PI / 2 ->
  PI / 2 < target_lat < 3 * PI / 2 \/ - 3 * PI / 2 < target_lat < - PI / 2 ->
  geographic_projection l source_lat source_lon = Raise ValueError.
Proof.
  intros dr target_lat Hs Ht.
  pose proof (quarter_shift_range _ Hs) as [Hs0 Hs1].
  pose proof (tan_gt_0 _ Hs0 Hs1) as Htans.
  pose proof PI_RGT_0 as Hpi.
  assert (Htant : tan (target_lat / 2 + PI / 4) < 0).
  { destruct Ht as [[Hlo Hhi] | [Hlo Hhi]].
    - unfold tan.
      assert (Hsin : 0 < sin (target_lat / 2 + PI / 4))
        by (apply sin_gt_0; lra).
      assert (Hcos : cos (target_lat / 2 + PI / 4) < 0)
        by (apply cos_lt_0; lra).
      replace (sin (target_lat / 2 + PI / 4) / cos (target_lat / 2 + PI / 4))
        with (- (sin (target_lat / 2 + PI / 4)
                 / - cos (target_lat / 2 + PI / 4)))
        by (field; lra).
      apply Ropp_lt_gt_0_contravar, Rlt_gt, Rdiv_lt_0_compat; lra.
    - apply tan_lt_0; lra. }
  unfold geographic_projection. fold dr. fold target_lat.
  step_div; [| lra].
  unfold py_log.
  destruct (Rlt_dec 0 (tan (target_lat / 2 + PI / 4)
                       / tan (source_lat / 2 + PI / 4))) as [Hpos | _];
    [| reflexivity].
  exfalso.
  apply (Rmult_lt_compat_r (tan (source_lat / 2 + PI / 4))) in Hpos;
    [| assumption].
  unfold Rdiv in Hpos. rewrite Rmult_assoc, Rinv_l in Hpos by lra. lra.
Qed.

(** X5. On a camera with no zero parameter, when the source latitude lies
    strictly between the poles but the target latitude
    [source_lat + dr * cos target_bearing] falls beyond a pole (by less than
    a half turn), [get_event_pos] raises [ValueError]: the argument of
    [math.log] on line 77 is negative. *)
Theorem get_event_pos_beyond_pole_raises (heights : gmap string R)
    (classification : string) (bearing_center source_lat source_lon : R)
    (sensor_width_px sensor_height_px target_center_x : Z)
    (target_center_y target_width_px : option Z) (target_height_px : Z)
    (altitude : R) (focal_length sensor_width : option R) :
  let dr :=
    distance_of (probable_height_geo heights classification altitude)
      sensor_width_px sensor_height_px target_height_px focal_length
      sensor_width / RADIUS in
  let bearing :=
    bearing_of bearing_center sensor_width_px target_center_x focal_length
      sensor_width in
  let target_lat := source_lat + dr * cos bearing in
  ~ degenerate_camera sensor_width_px sensor_height_px target_height_px
      focal_length sensor_width ->
  - PI / 2 < source_lat < PI / 2 ->
  PI / 2 < target_lat < 3 * PI / 2 \/ - 3 * PI / 2 < target_lat < - PI / 2 ->
  get_event_pos heights classification bearing_center source_lat source_lon
    sensor_width_px sensor_height_px target_center_x target_center_y
    target_width_px target_height_px altitude focal_length sensor_width
  = Raise ValueError.
Proof.
  intros dr bearing target_lat Hnd Hs Ht.
  unfold get_event_pos. rewrite get_event_pos_locals_nonzero by assumption.
  cbn [py_bind]. by apply geographic_projection_overshoot.
Qed.

Lemma probable_heights_boat : probable_heights !! "boat" = Some 30.0.
Proof. reflexivity. Qed.

Lemma get_event_pos_beyond_pole_raises_witness :
  get_event_pos probable_heights "boat" 0 (PI / 2 - 1 / 100) 0 1920 1080 960
    None None 1 41 None None = Raise ValueError.
Proof.
  pose proof PI2_1 as Hpi.
  assert (Hdr :
    distance_of (probable_height_geo probable_heights "boat" 41) 1920 1080
      1 None None / RADIUS = 60 * 22 * 1920 / (7 * 6371000)).
  { unfold distance_of, probable_height_geo, RADIUS, FOCAL_LENGTH,
      SENSOR_WIDTH.
    rewrite probable_heights_boat. cbn [from_option Datatypes.id].
    destruct (Rlt_dec 40 41); lra. }
  apply (get_event_pos_beyond_pole_raises probable_heights "boat" 0
           (PI / 2 - 1 / 100) 0 1920 1080 960 None None 1 41 None None).
  - unfold degenerate_camera, FOCAL_LENGTH, SENSOR_WIDTH.
    cbn [from_option Datatypes.id].
    intros [H | [H | [H | [H | H]]]]; first [discriminate | lra].
  - lra.
  - left. rewrite Hdr, bearing_of_hd_centre, cos_0. lra.
Defined.

(** ** The local projector in the horizontal plane *)

Lemma not_degenerate_nonzero (swp shp thp : Z) (fl sw : option R) :
  ~ degenerate_camera swp shp thp fl sw ->
  IZR swp <> 0 /\ IZR shp <> 0 /\ IZR thp <> 0
  /\ default FOCAL_LENGTH fl <> 0 /\ default SENSOR_WIDTH sw <> 0.
Proof.
  intros Hnd. by destruct (degenerate_camera_dec swp shp thp fl sw).
Qed.

(** The pinhole estimate: the pixel height of the sensor cancels. *)
Lemma distance_of_pinhole (height : R) (swp shp thp : Z) (fl sw : option R) :
  ~ degenerate_camera swp shp thp fl sw ->
  distance_of height swp shp thp fl sw
  = height * default FOCAL_LENGTH fl * IZR swp
    / (default SENSOR_WIDTH sw * IZR thp).
Proof.
  intros (Hw & Hh & Ht & Hf & Hs)%not_degenerate_nonzero.
  unfold distance_of. field. repeat split; assumption.
Qed.

Lemma zconst_of_per_pixel (height : R) (shp thp : Z) :
  IZR shp <> 0 -> IZR thp <> 0 ->
  zconst_of height shp thp = height / IZR thp.
Proof. intros Hh Ht. unfold zconst_of. field. split; assumption. Qed.



(** X7. On a camera with no zero parameter, if the distance estimate is 0
    then [get_event_local_pos] returns the origin [[0, 0, 0]], whatever the
    bearing and the pixel row. *)
Theorem local_zero_distance_is_origin (heights : gmap string R)
    (classification : string) (bearing_center : R)
    (sensor_width_px sensor_height_px target_center_x target_center_y
       target_height_px : Z)
    (focal_length sensor_width : option R) :
  ~ degenerate_camera sensor_width_px sensor_height_px target_height_px
      focal_length sensor_width ->
  distance_of (probable_height_local heights classification)
    sensor_width_px sensor_height_px target_height_px focal_length
    sensor_width = 0 ->
  get_event_local_pos heights classification bearing_center sensor_width_px
    sensor_height_px target_center_x target_center_y target_height_px
    focal_length sensor_width = Ok [0; 0; 0].
Proof.
  intros Hnd Hd.
  pose proof (not_degenerate_nonzero _ _ _ _ _ Hnd) as (Hw & Hh & Ht & Hf & Hs).
  rewrite get_event_local_pos_nonzero by assumption. rewrite Hd.
  assert (Hheight : probable_height_local heights classification = 0).
  { rewrite distance_of_pinhole in Hd by assumption.
    apply (Rmult_eq_compat_r
             (default SENSOR_WIDTH sensor_width * IZR target_height_px)) in Hd.
    field_simplify in Hd; [| split; assumption].
    apply Rmult_integral in Hd as [Hd | Hd]; [| contradiction].
    apply Rmult_integral in Hd as [Hd | Hd]; [| contradiction].
    exact Hd. }
  rewrite Hheight, zconst_of_per_pixel by assumption.
  destruct (Rlt_dec _ _); repeat (f_equal; try (unfold Rdiv; ring)).
Qed.

Lemma local_zero_distance_is_origin_witness :
  get_event_local_pos flat_heights "flat" 1 1920 1080 300 700 100 None None
  = Ok [0; 0; 0].
Proof.
  apply (local_zero_distance_is_origin flat_heights "flat" 1 1920 1080 300
           700 100 None None).
  - exact not_degenerate_hd.
  - unfold distance_of, probable_height_local, flat_heights.
    rewrite lookup_singleton_eq. cbn [from_option Datatypes.id].
    unfold Rdiv. ring.
Defined.



(** ** The two entry points compared *)

(** X9. The entry points run the same camera geometry.  At an altitude of
    at most 40 they reach the projection step in the same state, errors
    included; above 40, on a camera with no zero parameter, they agree on
    the field of view and the target bearing, and the distance estimated by
    [get_event_pos] is twice that of [get_event_local_pos]. *)
Theorem altitude_rule_relates_entry_points (heights : gmap string R)
    (classification : string) (bearing_center : R)
    (sensor_width_px sensor_height_px target_center_x target_height_px : Z)
    (altitude : R) (focal_length sensor_width : option R) :
  (altitude <= 40 ->
   get_event_pos_locals heights classification bearing_center
     sensor_width_px sensor_height_px target_center_x target_height_px
     altitude focal_length sensor_width
   = get_event_local_pos_locals heights classification bearing_center
       sensor_width_px sensor_height_px target_center_x target_height_px
       focal_length sensor_width)
  /\ (40 < altitude ->
      ~ degenerate_camera sensor_width_px sensor_height_px target_height_px
          focal_length sensor_width ->
      exists l l',
        get_event_pos_locals heights classification bearing_center
          sensor_width_px sensor_height_px target_center_x target_height_px
          altitude focal_length sensor_width = Ok l
        /\ get_event_local_pos_locals heights classification bearing_center
             sensor_width_px sensor_height_px target_center_x
             target_height_px focal_length sensor_width = Ok l'
        /\ field_of_view l = field_of_view l'
        /\ target_bearing l = target_bearing l'
        /\ distance_to_object l = 2 * distance_to_object l').
Proof.
  split.
  - intros Hlow.
    unfold get_event_pos_locals, get_event_local_pos_locals,
      probable_height_geo, probable_height_local.
    destruct (Rlt_dec 40 altitude); [lra | reflexivity].
  - intros Hhigh Hnd. do 2 eexists.
    split; [by apply get_event_pos_locals_nonzero |].
    split; [by apply get_event_local_pos_locals_nonzero |].
    cbn [field_of_view target_bearing distance_to_object].
    split; [reflexivity |]. split; [reflexivity |].
    rewrite !distance_of_pinhole by assumption.
    apply not_degenerate_nonzero in Hnd as (Hw & Hh & Ht & Hf & Hs).
    unfold probable_height_geo, probable_height_local.
    destruct (Rlt_dec 40 altitude); [| lra].
    field. split; assumption.
Qed.

Lemma altitude_rule_relates_entry_points_witness :
  get_event_pos_locals probable_heights "car" 0 1920 1080 960 100 40 None
    None
  = get_event_local_pos_locals probable_heights "car" 0 1920 1080 960 100
      None None
  /\ exists l l',
      get_event_pos_locals probable_heights "car" 0 1920 1080 960 100 41
        None None = Ok l
      /\ get_event_local_pos_locals probable_heights "car" 0 1920 1080 960
           100 None None = Ok l'
      /\ field_of_view l = field_of_view l'
      /\ target_bearing l = target_bearing l'
      /\ distance_to_object l = 2 * distance_to_object l'.
Proof.
  split.
  - apply (altitude_rule_relates_entry_points probable_heights "car" 0 1920
             1080 960 100 40 None None). lra.
  - apply (altitude_rule_relates_entry_points probable_heights "car" 0 1920
             1080 960 100 41 None None).
    + lra.
    + exact not_degenerate_hd.
Defined.

(** ** The camera bearing is taken modulo a full turn *)




(** ** Field of view and target bearing *)


Lemma fov_of_lt_180 (focal_length sensor_width : option R) :
  fov_of focal_length sensor_width < 180.
Proof.
  unfold fov_of, degrees. pose proof PI_RGT_0 as Hpi.
  destruct (atan_bound (default SENSOR_WIDTH sensor_width / 2
                        / default FOCAL_LENGTH focal_length)) as [_ Hhi].
  apply (Rmult_lt_reg_r PI); [assumption |].
  unfold Rdiv at 1. rewrite Rmult_assoc, Rinv_l by lra. lra.
Qed.

(** X11. On valid camera parameters both entry points compute a field of
    view strictly between 0 and 180 degrees. *)
Theorem field_of_view_range (heights : gmap string R)
    (classification : string) (bearing_center : R)
    (sensor_width_px sensor_height_px target_center_x target_height_px : Z)
    (altitude : R) (focal_length sensor_width : option R) :
  valid_camera sensor_width_px sensor_height_px target_height_px
    focal_length sensor_width ->
  (exists l,
      get_event_pos_locals heights classification bearing_center
        sensor_width_px sensor_height_px target_center_x target_height_px
        altitude focal_length sensor_width = Ok l
      /\ 0 < field_of_view l < 180)
  /\ (exists l,
      get_event_local_pos_locals heights classification bearing_center
        sensor_width_px sensor_height_px target_center_x target_height_px
        focal_length sensor_width = Ok l
      /\ 0 < field_of_view l < 180).
Proof.
  intros Hv. pose proof Hv as (_ & _ & _ & Hf & Hs).
  pose proof (fov_of_pos _ _ Hf Hs) as Hpos.
  pose proof (fov_of_lt_180 focal_length sensor_width) as Hlt.
  split; eexists.
  - split; [by apply get_event_pos_locals_ok | by split].
  - split; [by apply get_event_local_pos_locals_ok | by split].
Qed.

Lemma field_of_view_range_witness :
  (exists l,
      get_event_pos_locals probable_heights "car" 0 1920 1080 960 100 10
        None None = Ok l
      /\ 0 < field_of_view l < 180)
  /\ (exists l,
      get_event_local_pos_locals probable_heights "car" 0 1920 1080 960 100
        None None = Ok l
      /\ 0 < field_of_view l < 180).
Proof.
  apply (field_of_view_range probable_heights "car" 0 1920 1080 960 100 10
           None None).
  exact valid_camera_hd.
Defined.




(** ** The distance estimate *)



(** ** The vertical offset *)

Lemma half_lt_IZR (a b : Z) : IZR a / 2 < IZR b <-> (a < 2 * b)%Z.
Proof.
  split.
  - intros H. apply lt_IZR. rewrite mult_IZR. lra.
  - intros H%IZR_lt. rewrite mult_IZR in H. lra.
Qed.

(** X14. On valid camera parameters with a positive assumed height the
    third output of [get_event_local_pos] is [height / target_height_px]
    times a pixel count; it is positive exactly for a row strictly between
    the midline and the bottom edge
    ([sensor_height_px / 2 < target_center_y < sensor_height_px]), zero
    exactly on the midline and on the bottom edge, and negative for every
    other row. *)
Theorem vertical_offset_sign (heights : gmap string R)
    (classification : string) (bearing_center : R)
    (sensor_width_px sensor_height_px target_center_x target_center_y
       target_height_px : Z)
    (focal_length sensor_width : option R) :
  0 < default 1.0 (heights !! classification) ->
  valid_camera sensor_width_px sensor_height_px target_height_px
    focal_length sensor_width ->
  exists x y z,
    get_event_local_pos heights classification bearing_center
      sensor_width_px sensor_height_px target_center_x target_center_y
      target_height_px focal_length sensor_width = Ok [x; y; z]
    /\ (0 < z <->
        (sensor_height_px < 2 * target_center_y
         /\ target_center_y < sensor_height_px)%Z)
    /\ (z = 0 <->
        (2 * target_center_y = sensor_height_px
         \/ target_center_y = sensor_height_px)%Z)
    /\ (z < 0 <->
        (2 * target_center_y < sensor_height_px
         \/ sensor_height_px < target_center_y)%Z).
Proof.
  intros Hh Hv. pose proof Hv as (_ & Hs & Ht & _).
  pose proof (zconst_of_pos _ _ _ Hh Hs Ht) as Hz.
  do 3 eexists. split; [by apply get_event_local_pos_ok |].
  fold (probable_height_local heights classification) in Hz.
  set (zc := zconst_of (probable_height_local heights classification)
               sensor_height_px target_height_px) in *.
  destruct (Rlt_dec (IZR sensor_height_px / 2) (IZR target_center_y))
    as [Hlow | Hup].
  - pose proof Hlow as Hlow'%half_lt_IZR.
    rewrite minus_IZR.
    split; [| split]; split.
    + intros Hpos. split; [lia |]. apply lt_IZR. nra.
    + intros [_ Hlt%IZR_lt]. nra.
    + intros Hzero. right. apply eq_IZR. nra.
    + intros [E | E]; [lia |]. rewrite E. ring.
    + intros Hneg. right. apply lt_IZR. nra.
    + intros [E | Hlt%IZR_lt]; [lia | nra].
  - assert (Hup' : (2 * target_center_y <= sensor_height_px)%Z).
    { apply Z.nlt_ge. intros H. by apply Hup, half_lt_IZR. }
    pose proof Hup' as Hle%IZR_le. rewrite mult_IZR in Hle.
    pose proof (IZR_pos _ Hs) as Hs'.
    split; [| split]; split.
    + intros Hpos. exfalso. nra.
    + intros [Hlt _]. lia.
    + intros Hzero. left. apply eq_IZR. rewrite mult_IZR. nra.
    + intros [E | E].
      * apply (f_equal IZR) in E. rewrite mult_IZR in E. nra.
      * apply (f_equal IZR) in E. nra.
    + intros Hneg. left. apply lt_IZR. rewrite mult_IZR. nra.
    + intros [Hlt%IZR_lt | Hlt%IZR_lt].
      * rewrite mult_IZR in Hlt. nra.
      * nra.
Qed.

Lemma vertical_offset_sign_witness :
  exists x y z,
    get_event_local_pos probable_heights "car" 0 1920 1080 960 1200 100
      None None = Ok [x; y; z]
    /\ z < 0.
Proof.
  destruct (vertical_offset_sign probable_heights "car" 0 1920 1080 960 1200
              100 None None) as (x & y & z & Hrun & _ & _ & Hneg).
  - apply probable_heights_positive.
  - exact valid_camera_hd.
  - exists x, y, z. split; [exact Hrun |]. apply Hneg. right. lia.
Defined.

(** ** The height table of consts.py *)

Lemma probable_heights_bounds (classification : string) :
  0.6 <= default 1.0 (probable_heights !! classification) <= 30.
Proof.
  unfold probable_heights. cbn [list_to_map foldr uncurry fst snd].
  repeat (rewrite lookup_insert; case_decide;
          [cbn [from_option Datatypes.id]; lra |]).
  rewrite lookup_empty. cbn [from_option Datatypes.id]. lra.
Qed.

(** X15. With the table of [consts.py], whatever the classification string
    (known or not) and the altitude, the height assumed by
    [get_event_local_pos] lies between 0.6 m and 30 m and the height assumed
    by [get_event_pos] between 0.6 m and 60 m; on valid camera parameters
    both entry points therefore estimate a strictly positive distance. *)
Theorem shipped_table_heights_bounded (classification : string)
    (bearing_center : R)
    (sensor_width_px sensor_height_px target_center_x target_height_px : Z)
    (altitude : R) (focal_length sensor_width : option R) :
  valid_camera sensor_width_px sensor_height_px target_height_px
    focal_length sensor_width ->
  (exists l,
      get_event_pos_locals probable_heights classification bearing_center
        sensor_width_px sensor_height_px target_center_x target_height_px
        altitude focal_length sensor_width = Ok l
      /\ 0.6 <= probable_height l <= 60
      /\ 0 < distance_to_object l)
  /\ (exists l,
      get_event_local_pos_locals probable_heights classification
        bearing_center sensor_width_px sensor_height_px target_center_x
        target_height_px focal_length sensor_width = Ok l
      /\ 0.6 <= probable_height l <= 30
      /\ 0 < distance_to_object l).
Proof.
  intros Hv.
  pose proof (probable_heights_bounds classification) as [Hlo Hhi].
  split; eexists.
  - split; [by apply get_event_pos_locals_ok |].
    cbn [probable_height distance_to_object].
    assert (Hgeo :
      0.6 <= probable_height_geo probable_heights classification altitude
          <= 60).
    { unfold probable_height_geo. destruct (Rlt_dec 40 altitude); lra. }
    split; [exact Hgeo |]. apply distance_of_pos; [lra | assumption].
  - split; [by apply get_event_local_pos_locals_ok |].
    cbn [probable_height distance_to_object].
    unfold probable_height_local at 1 2.
    split; [by split |]. apply distance_of_pos; [| assumption].
    unfold probable_height_local. lra.
Qed.

Lemma shipped_table_heights_bounded_witness :
  (exists l,
      get_event_pos_locals probable_heights "unicorn" 0 1920 1080 960 100 50
        None None = Ok l
      /\ 0.6 <= probable_height l <= 60
      /\ 0 < distance_to_object l)
  /\ (exists l,
      get_event_local_pos_locals probable_heights "unicorn" 0 1920 1080 960
        100 None None = Ok l
      /\ 0.6 <= probable_height l <= 30
      /\ 0 < distance_to_object l).
Proof.
  apply (shipped_table_heights_bounded "unicorn" 0 1920 1080 960 100 50 None
           None).
  exact valid_camera_hd.
Defined.

(** ** Keyword calls: defaults and required parameters *)

Lemma passed_absent {A : Type} (sel : kwarg -> option A) (name : string)
    (kws : list kwarg) :
  (forall k v, sel k = Some v -> kw_name k = name) ->
  name ∉ kw_name <$> kws ->
  passed sel kws = None.
Proof.
  intros Hsel. induction kws as [| k rest IH]; [reflexivity |].
  rewrite fmap_cons, not_elem_of_cons. intros [Hne Hrest].
  cbn [passed]. destruct (sel k) as [v |] eqn:Hk.
  - exfalso. apply Hne. symmetry. by apply (Hsel k v).
  - by apply IH.
Qed.

Lemma sel_focal_length_name (k : kwarg) (v : R) :
  sel_focal_length k = Some v -> kw_name k = "focal_length".
Proof. by destruct k. Qed.

Lemma sel_sensor_width_name (k : kwarg) (v : R) :
  sel_sensor_width k = Some v -> kw_name k = "sensor_width".
Proof. by destruct k. Qed.

(** X16. Leaving out [focal_length] and [sensor_width] is the same as
    passing the constants of [consts.py], 22 and 7: a keyword call of either
    entry point without them returns what the call with
    [focal_length=22, sensor_width=7] added returns. *)
Theorem lens_defaults_are_the_constants (heights : gmap string R)
    (kws : list kwarg) :
  "focal_length" ∉ kw_name <$> kws ->
  "sensor_width" ∉ kw_name <$> kws ->
  call_get_event_pos heights
    (kw_focal_length 22 :: kw_sensor_width 7 :: kws)
  = call_get_event_pos heights kws
  /\ call_get_event_local_pos heights
       (kw_focal_length 22 :: kw_sensor_width 7 :: kws)
     = call_get_event_local_pos heights kws.
Proof.
  intros Hf Hs.
  assert (Hf' : "focal_length" ∉ kw_name <$> kw_sensor_width 7 :: kws).
  { rewrite fmap_cons, not_elem_of_cons. split; [discriminate | exact Hf]. }
  unfold call_get_event_pos, call_get_event_local_pos.
  rewrite !(check_keywords_extend _ (kw_focal_length 22)),
    !(check_keywords_extend _ (kw_sensor_width 7));
    try assumption;
    try (cbn [kw_name]; unfold get_event_pos_params,
           get_event_local_pos_params; set_solver).
  cbn [required passed sel_classification sel_bearing_center sel_source_lat
       sel_source_lon sel_sensor_width_px sel_sensor_height_px
       sel_target_center_x sel_target_center_y sel_target_width_px
       sel_target_height_px sel_altitude sel_focal_length sel_sensor_width].
  rewrite (passed_absent sel_focal_length "focal_length" kws
             sel_focal_length_name Hf).
  rewrite (passed_absent sel_sensor_width "sensor_width" kws
             sel_sensor_width_name Hs).
  split; reflexivity.
Qed.

Lemma lens_defaults_are_the_constants_witness :
  call_get_event_pos probable_heights
    (kw_focal_length 22 :: kw_sensor_width 7 :: geo_call_hd)
  = call_get_event_pos probable_heights geo_call_hd
  /\ call_get_event_local_pos probable_heights
       (kw_focal_length 22 :: kw_sensor_width 7 :: local_call_hd)
     = call_get_event_local_pos probable_heights local_call_hd.
Proof.
  split.
  - apply (lens_defaults_are_the_constants probable_heights geo_call_hd);
      unfold geo_call_hd; cbn [fmap list_fmap kw_name];
      apply (bool_decide_unpack _); by vm_compute.
  - apply (lens_defaults_are_the_constants probable_heights local_call_hd);
      unfold local_call_hd; cbn [fmap list_fmap kw_name];
      apply (bool_decide_unpack _); by vm_compute.
Defined.

(** Runs the binding of the required keywords of a call. *)
Ltac bind_required kws :=
  repeat match goal with
         | |- context [passed ?sel kws] =>
             let E := fresh "E" in
             destruct (passed sel kws) eqn:E; cbn [py_bind];
             [| reflexivity]
         end.

(** X17. The parameters without a default are required: a keyword call of
    [get_event_pos] that leaves out [classification], [bearing_center],
    [source_lat], [source_lon], [sensor_width_px], [sensor_height_px],
    [target_center_x], [target_height_px] or [altitude] raises [TypeError],
    and so does a call of [get_event_local_pos] that leaves out
    [classification], [bearing_center], [sensor_width_px],
    [sensor_height_px], [target_center_x], [target_center_y] or
    [target_height_px]. *)
Theorem missing_required_keyword_raises (heights : gmap string R)
    (kws : list kwarg) :
  (passed sel_classification kws = None
   \/ passed sel_bearing_center kws = None
   \/ passed sel_source_lat kws = None
   \/ passed sel_source_lon kws = None
   \/ passed sel_sensor_width_px kws = None
   \/ passed sel_sensor_height_px kws = None
   \/ passed sel_target_center_x kws = None
   \/ passed sel_target_height_px kws = None
   \/ passed sel_altitude kws = None ->
   call_get_event_pos heights kws = Raise TypeError)
  /\ (passed sel_classification kws = None
      \/ passed sel_bearing_center kws = None
      \/ passed sel_sensor_width_px kws = None
      \/ passed sel_sensor_height_px kws = None
      \/ passed sel_target_center_x kws = None
      \/ passed sel_target_center_y kws = None
      \/ passed sel_target_height_px kws = None ->
      call_get_event_local_pos heights kws = Raise TypeError).
Proof.
  split; intros Hmissing.
  - unfold call_get_event_pos, check_keywords, required.
    destruct (decide _); [| reflexivity]. cbn [py_bind].
    bind_required kws. exfalso. intuition congruence.
  - unfold call_get_event_local_pos, check_keywords, required.
    destruct (decide _); [| reflexivity]. cbn [py_bind].
    bind_required kws. exfalso. intuition congruence.
Qed.

Lemma missing_required_keyword_raises_witness :
  call_get_event_pos probable_heights local_call_hd = Raise TypeError
  /\ call_get_event_local_pos probable_heights
       [kw_classification "car"] = Raise TypeError.
Proof.
  destruct (missing_required_keyword_raises probable_heights local_call_hd)
    as [Hgeo _].
  destruct (missing_required_keyword_raises probable_heights
              [kw_classification "car"]) as [_ Hlocal].
  split.
  - apply Hgeo. do 2 right. left. reflexivity.
  - apply Hlocal. right. left. reflexivity.
Defined.

(** ** The guard of line 78 *)





(** ** Independence of the image resolution *)





